(** * Session and message orchestration of the Streamlit front end

    A shallow embedding of [MedicalChatbotUI.create_session] and
    [MedicalChatbotUI.send_message] (src/frontend/streamlit_app.py), the two
    methods that touch [st.session_state] and talk to the FastAPI backend.

    The methods are Python procedures that mutate [st.session_state], call
    [requests.post], show banners with [st.error] and catch exceptions.  They
    are written here in a small state-and-exception monad over a [world] that
    holds the session state and the trace of the effects performed so far;
    the backend is a function from requests to what [requests.post] does. *)

From Stdlib Require Import String Ascii List ZArith Bool Lia.
From Stdlib Require Import DecimalString SpecFloat.
Import ListNotations.
Local Open Scope string_scope.
Local Open Scope Z_scope.
Local Set Warnings "-register-all".

(** ** Python values *)

(** The values [response.json()] can return, which are the values that end
    up in [st.session_state]: a dict is kept as the list of its items. *)
Inductive pyval : Type :=
| PyNone
| PyBool (b : bool)
| PyInt (z : Z)
| PyFloat (f : spec_float)
| PyStr (s : string)
| PyList (l : list pyval)
| PyDict (items : list (string * pyval)).

(** [bool(v)], the test behind [not st.session_state.session_id]. *)
Definition truthy (v : pyval) : bool :=
  match v with
  | PyNone => false
  | PyBool b => b
  | PyInt z => negb (z =? 0)
  | PyFloat (S754_zero _) => false
  | PyFloat _ => true
  | PyStr s => negb (s =? "")%string
  | PyList l => match l with [] => false | _ :: _ => true end
  | PyDict d => match d with [] => false | _ :: _ => true end
  end.

(** Exceptions, by the [except] clause that catches them:
    [requests.exceptions.ConnectionError], any other subclass of [Exception],
    and what derives from [BaseException] only (KeyboardInterrupt,
    SystemExit), which neither clause catches. *)
Inductive exn_class : Type := ConnectionError | OtherException | BaseExceptionOnly.

Record exn : Type := mkExn { exn_cls : exn_class; exn_str : string }.

Fixpoint dict_get (items : list (string * pyval)) (key : string) : option pyval :=
  match items with
  | [] => None
  | (k, v) :: rest => if (k =? key)%string then Some v else dict_get rest key
  end.

(** [v[key]] for a string key: a dict looks the key up and raises KeyError
    when it is missing, every other value raises TypeError. *)
Definition subscript (v : pyval) (key : string) : exn + pyval :=
  match v with
  | PyDict items =>
      match dict_get items key with
      | Some x => inr x
      | None => inl (mkExn OtherException ("'" ++ key ++ "'"))
      end
  | PyNone => inl (mkExn OtherException "'NoneType' object is not subscriptable")
  | PyBool _ => inl (mkExn OtherException "'bool' object is not subscriptable")
  | PyInt _ => inl (mkExn OtherException "'int' object is not subscriptable")
  | PyFloat _ => inl (mkExn OtherException "'float' object is not subscriptable")
  | PyStr _ => inl (mkExn OtherException "string indices must be integers, not 'str'")
  | PyList _ => inl (mkExn OtherException "list indices must be integers or slices, not str")
  end.

(** [str(n)] for an int, as the f-string on the status code prints it. *)
Definition str_int (n : Z) : string := NilZero.string_of_int (Z.to_int n).

(** ** HTTP *)

(** A call [requests.post(url)] or [requests.post(url, json=payload)]. *)
Record request : Type := mkRequest { url : string; json : option pyval }.

(** A response: its [status_code] and what [response.json()] does, return a
    value or raise a decoding error (a [RequestException], not a
    [ConnectionError]) with the given text. *)
Record response : Type := mkResponse { status_code : Z; json_body : string + pyval }.

(** What one [requests.post] call does: return a response or raise. *)
Inductive post_result : Type :=
| Responds (r : response)
| Raises (e : exn).

Definition backend : Type := request -> post_result.

(** ** State *)

(** An entry of [st.session_state.messages], [{"role": ..., "content": ...}]. *)
Record message : Type := mkMessage { role : string; content : pyval }.

(** The three keys of [st.session_state]. *)
Record session_state : Type := mkState {
  session_id : pyval;
  messages : list message;
  suggestions : pyval
}.

(** The effects a method performs, in the order it performs them. *)
Inductive effect : Type :=
| Post (r : request)
| StError (text : string)
| Sleep (milliseconds : Z).

Record world : Type := mkWorld { state : session_state; trace : list effect }.

(** [initialize_session_state] sets each key that [st.session_state] does
    not have yet.  Nothing else creates or deletes the three keys, so either
    none exists (a new browser session, [None] here) or all do (a re-run of
    the script). *)
Definition initialize_session_state (stored : option session_state) : session_state :=
  match stored with
  | None => {| session_id := PyNone; messages := []; suggestions := PyList [] |}
  | Some s => s
  end.

Definition initial_world : world :=
  {| state := initialize_session_state None; trace := [] |}.

(** ** The monad *)

Inductive outcome (A : Type) : Type :=
| Returned (a : A)
| Raised (e : exn).
Arguments Returned {A} a.
Arguments Raised {A} e.

Definition ui (A : Type) : Type := world -> outcome A * world.

Definition ret {A} (a : A) : ui A := fun w => (Returned a, w).

Definition bind {A B} (m : ui A) (k : A -> ui B) : ui B :=
  fun w =>
    match m w with
    | (Returned a, w') => k a w'
    | (Raised e, w') => (Raised e, w')
    end.

Definition raise {A} (e : exn) : ui A := fun w => (Raised e, w).

(** [try: body / except ...: handler]; the handler re-raises what no clause
    matches. *)
Definition try_except {A} (body : ui A) (handler : exn -> ui A) : ui A :=
  fun w =>
    match body w with
    | (Returned a, w') => (Returned a, w')
    | (Raised e, w') => handler e w'
    end.

Declare Scope ui_scope.
Delimit Scope ui_scope with ui.
Notation "x <- m ;; k" := (bind m (fun x => k))
  (at level 100, m at next level, right associativity) : ui_scope.
Notation "m ;; k" := (bind m (fun _ => k))
  (at level 100, right associativity) : ui_scope.
Local Open Scope ui_scope.

Definition lift {A} (r : exn + A) : ui A :=
  match r with
  | inr a => ret a
  | inl e => raise e
  end.

Definition emit (e : effect) : ui unit :=
  fun w => (Returned tt, {| state := state w; trace := trace w ++ [e] |}).

Definition get_state : ui session_state := fun w => (Returned (state w), w).

Definition modify (f : session_state -> session_state) : ui unit :=
  fun w => (Returned tt, {| state := f (state w); trace := trace w |}).

Definition set_session_id (v : pyval) : ui unit :=
  modify (fun s => {| session_id := v; messages := messages s; suggestions := suggestions s |}).

Definition set_messages (l : list message) : ui unit :=
  modify (fun s => {| session_id := session_id s; messages := l; suggestions := suggestions s |}).

Definition set_suggestions (v : pyval) : ui unit :=
  modify (fun s => {| session_id := session_id s; messages := messages s; suggestions := v |}).

(** [st.session_state.messages.append(m)]. *)
Definition messages_append (m : message) : ui unit :=
  modify (fun s => {| session_id := session_id s; messages := messages s ++ [m];
                      suggestions := suggestions s |}).

Definition st_error (text : string) : ui unit := emit (StError text).

(** [time.sleep(seconds)], recorded in milliseconds. *)
Definition time_sleep (milliseconds : Z) : ui unit := emit (Sleep milliseconds).

Definition requests_post (b : backend) (r : request) : ui response :=
  emit (Post r) ;;
  match b r with
  | Responds resp => ret resp
  | Raises e => raise e
  end.

Definition response_json (r : response) : ui pyval :=
  match json_body r with
  | inr v => ret v
  | inl text => raise (mkExn OtherException text)
  end.

(** ** The two methods *)

Definition API_BASE_URL : string := "http://localhost:8000".

Definition session_request : request :=
  {| url := API_BASE_URL ++ "/session"; json := None |}.

Definition chat_request (message session : pyval) : request :=
  {| url := API_BASE_URL ++ "/chat";
     json := Some (PyDict [("message", message); ("session_id", session)]) |}.

Definition create_session (b : backend) : ui unit :=
  try_except
    (response <- requests_post b session_request ;;
     if status_code response =? 200 then
       body <- response_json response ;;
       sid <- lift (subscript body "session_id") ;;
       set_session_id sid ;;
       set_messages [] ;;
       set_suggestions (PyList [])
     else
       st_error "Failed to create a new session. Please ensure the backend is running.")
    (fun e =>
       match exn_cls e with
       | ConnectionError =>
           st_error "Connection Error: Could not connect to the API server."
       | OtherException =>
           st_error ("An unexpected error occurred: " ++ exn_str e)
       | BaseExceptionOnly => raise e
       end).

Definition user_message (text : string) : message :=
  {| role := "user"; content := PyStr text |}.

Definition assistant_message (c : pyval) : message :=
  {| role := "assistant"; content := c |}.

Definition error_reply : message :=
  assistant_message (PyStr "Sorry, I encountered an error. Please try again.").

Definition cannot_connect_reply : message :=
  assistant_message (PyStr "I can't connect to my brain right now. Please check the server.").

(** The part of [send_message] after the session check: the echo of the
    user's message and the [try] block around the exchange. *)
Definition echo_and_exchange (b : backend) (message : string) : ui unit :=
  messages_append (user_message message) ;;
  try_except
    (s <- get_state ;;
     response <- requests_post b (chat_request (PyStr message) (session_id s)) ;;
     if status_code response =? 200 then
       result <- response_json response ;;
       reply <- lift (subscript result "response") ;;
       messages_append (assistant_message reply) ;;
       sugg <- lift (subscript result "suggestions") ;;
       set_suggestions sugg
     else
       st_error ("Error: Received status code " ++ str_int (status_code response)
                 ++ " from the server.") ;;
       messages_append error_reply)
    (fun e =>
       match exn_cls e with
       | ConnectionError =>
           st_error "Connection Error: Could not send message. Please check the backend server." ;;
           messages_append cannot_connect_reply
       | OtherException =>
           st_error ("An unexpected error occurred while sending the message: " ++ exn_str e)
       | BaseExceptionOnly => raise e
       end).

Definition send_message (b : backend) (message : string) : ui unit :=
  s <- get_state ;;
  if negb (truthy (session_id s)) then
    create_session b ;;
    time_sleep 500 ;;
    s' <- get_state ;;
    if negb (truthy (session_id s')) then ret tt
    else echo_and_exchange b message
  else echo_and_exchange b message.

(** The "Start New Conversation" button of [render_sidebar] runs
    [self.create_session()] and then asks Streamlit for a re-render. *)
Definition reset (b : backend) : ui unit := create_session b.

(** ** Vocabulary of the specification, read off the backend *)

(** The two transport errors of the specification: [requests.post] raised a
    [ConnectionError], or the response carries a status other than 200. *)
Inductive transport_error : Type :=
| Unreachable
| BackendRejected (status : Z).

Definition transport_error_of (p : post_result) : option transport_error :=
  match p with
  | Raises e =>
      match exn_cls e with
      | ConnectionError => Some Unreachable
      | _ => None
      end
  | Responds r =>
      if status_code r =? 200 then None else Some (BackendRejected (status_code r))
  end.

(** Session creation succeeds with identifier [sid]: a 200 response whose
    body decodes to a dict with a ["session_id"] entry. *)
Definition created_session (b : backend) : option pyval :=
  match b session_request with
  | Responds r =>
      if status_code r =? 200 then
        match json_body r with
        | inr body =>
            match subscript body "session_id" with
            | inr sid => Some sid
            | inl _ => None
            end
        | inl _ => None
        end
      else None
  | Raises _ => None
  end.

(** The exchange of [text] under session [sid] succeeds with a reply and
    suggestions: a 200 response whose body has both entries. *)
Definition exchanged (b : backend) (text : string) (sid : pyval) : option (pyval * pyval) :=
  match b (chat_request (PyStr text) sid) with
  | Responds r =>
      if status_code r =? 200 then
        match json_body r with
        | inr body =>
            match subscript body "response", subscript body "suggestions" with
            | inr reply, inr sugg => Some (reply, sugg)
            | _, _ => None
            end
        | inl _ => None
        end
      else None
  | Raises _ => None
  end.

(** [st.session_state.session_id] passes the test of [send_message]. *)
Definition has_session (s : session_state) : Prop := truthy (session_id s) = true.

(** It fails the test: the id is [None], as at start-up, or another falsy
    value. *)
Definition no_session (s : session_state) : Prop := truthy (session_id s) = false.

(** The state right after a successful [create_session]. *)
Definition fresh_session (sid : pyval) : session_state :=
  {| session_id := sid; messages := []; suggestions := PyList [] |}.

Definition with_messages (s : session_state) (l : list message) : session_state :=
  {| session_id := session_id s; messages := l; suggestions := suggestions s |}.

(** The invariant of the conversation state. *)
Definition session_invariant (s : session_state) : Prop :=
  no_session s -> messages s = [] /\ suggestions s = PyList [].

(** ** Operations of the orchestrator and reachable states *)

Inductive operation : Type :=
| StartSession
| SendMessage (text : string)
| Reset.

Definition run (b : backend) (o : operation) : ui unit :=
  match o with
  | StartSession => create_session b
  | SendMessage text => send_message b text
  | Reset => reset b
  end.

(** The worlds met when the operations are called one after the other from
    start-up, each call against any backend and whether it returns or
    raises; between calls Streamlit may re-run the script, which builds a
    new [MedicalChatbotUI] over the stored state. *)
Inductive reachable : world -> Prop :=
| reachable_init : reachable initial_world
| reachable_run b o w : reachable w -> reachable (snd (run b o w))
| reachable_rerun w :
    reachable w ->
    reachable {| state := initialize_session_state (Some (state w)); trace := trace w |}.

(** What a call performed: the part of the trace it added. *)
Definition effects (w w' : world) : list effect :=
  skipn (length (trace w)) (trace w').

(** A series of [send_message] calls, each with its own backend. *)
Fixpoint send_messages (calls : list (backend * string)) (w : world) : world :=
  match calls with
  | [] => w
  | (b, text) :: rest => send_messages rest (snd (send_message b text w))
  end.

(** The two log entries of a call whose exchange succeeds. *)
Definition exchange_entries (sid : pyval) (call : backend * string) : list message :=
  match exchanged (fst call) (snd call) sid with
  | Some (reply, _) => [user_message (snd call); assistant_message reply]
  | None => []
  end.

Fixpoint alternating (n : nat) : list string :=
  match n with
  | O => []
  | S n' => "user" :: "assistant" :: alternating n'
  end.

(** The reply [send_message] logs for a failed exchange. *)
Definition failure_reply (k : transport_error) : message :=
  match k with
  | Unreachable => cannot_connect_reply
  | BackendRejected _ => error_reply
  end.

(** The propagation policy as the specification words it: whenever a call
    made by an operation meets a transport error, the operation returns,
    shows an error and leaves the log ending in a new assistant message. *)
Definition every_transport_error_becomes_a_message : Prop :=
  forall b o w r k,
    In (Post r) (effects w (snd (run b o w))) ->
    transport_error_of (b r) = Some k ->
    fst (run b o w) = Returned tt /\
    (exists text, In (StError text) (effects w (snd (run b o w)))) /\
    (exists older c,
        messages (state (snd (run b o w))) = (older ++ [assistant_message c])%list /\
        messages (state (snd (run b o w))) <> messages (state w)).

(** ** Sample backends *)

Definition ok (body : pyval) : post_result :=
  Responds {| status_code := 200; json_body := inr body |}.

(** The backend of the specification's scenario A. *)
Definition scenario_backend : backend := fun r =>
  if (url r =? API_BASE_URL ++ "/session")%string then
    ok (PyDict [("session_id", PyStr "s-1")])
  else
    ok (PyDict [("response", PyStr "Tell me more");
                ("suggestions", PyList [PyStr "Since when?"; PyStr "Any fever?"])]).

Definition second_backend : backend := fun r =>
  if (url r =? API_BASE_URL ++ "/session")%string then
    ok (PyDict [("session_id", PyStr "s-2")])
  else
    ok (PyDict [("response", PyStr "Please see a doctor"); ("suggestions", PyList [])]).

(** A server whose session endpoint answers [{"session_id": null}]. *)
Definition forgetful_backend : backend := fun _ =>
  ok (PyDict [("session_id", PyNone)]).

(** No server is listening. *)
Definition down_backend : backend := fun _ =>
  Raises (mkExn ConnectionError "Connection refused").

(** The server answers every request with status 500. *)
Definition failing_backend : backend := fun _ =>
  Responds {| status_code := 500; json_body := inl "Expecting value" |}.

Definition active_world : world :=
  {| state := {| session_id := PyStr "s-1";
                 messages := [user_message "hello"; assistant_message (PyStr "Hi")];
                 suggestions := PyList [PyStr "Any fever?"] |};
     trace := [] |}.

(** ** Reading traces and logs *)

(** The requests among some effects, in order. *)
Fixpoint posts (l : list effect) : list request :=
  match l with
  | [] => []
  | Post r :: rest => r :: posts rest
  | _ :: rest => posts rest
  end.

(** The texts [st.error] showed among some effects, in order. *)
Fixpoint banners (l : list effect) : list string :=
  match l with
  | [] => []
  | StError text :: rest => text :: banners rest
  | _ :: rest => banners rest
  end.

(** A log read from the oldest entry on: every role is ["user"] or
    ["assistant"], and an assistant entry comes right after a user entry
    ([after_user] tells whether the entry before the list is a user's). *)
Fixpoint answers_follow_questions (after_user : bool) (log : list message) : bool :=
  match log with
  | [] => true
  | m :: rest =>
      if (role m =? "user")%string then answers_follow_questions true rest
      else if (role m =? "assistant")%string then
        after_user && answers_follow_questions false rest
      else false
  end.

(** What the [except Exception] clause of [send_message] catches before the
    reply is logged, with the text of the exception: [requests.post] raised
    something other than a connection error, the body of a 200 response does
    not decode, or the decoded body has no ["response"] entry. *)
Inductive unanswered : post_result -> string -> Prop :=
| unanswered_raise text :
    unanswered (Raises (mkExn OtherException text)) text
| unanswered_decode r text :
    status_code r = 200 -> json_body r = inl text -> unanswered (Responds r) text
| unanswered_entry r body e :
    status_code r = 200 -> json_body r = inr body ->
    subscript body "response" = inl e -> unanswered (Responds r) (exn_str e).


(** The outcome of a method that posts one request and catches what
    [except Exception] catches. *)
Definition outcome_of (p : post_result) : outcome unit :=
  match p with
  | Raises e =>
      match exn_cls e with
      | BaseExceptionOnly => Raised e
      | _ => Returned tt
      end
  | Responds _ => Returned tt
  end.

(** ** The handlers of the page *)

(** [str.lower()] on ASCII text, which the labels of the page are. *)
Definition ascii_lower (c : ascii) : ascii :=
  let n := nat_of_ascii c in
  if ((65 <=? n) && (n <=? 90))%nat then ascii_of_nat (n + 32) else c.

Fixpoint str_lower (s : string) : string :=
  match s with
  | EmptyString => EmptyString
  | String c rest => String (ascii_lower c) (str_lower rest)
  end.

Definition quick_symptoms : list string :=
  ["Sharp stomach pain"; "Nausea and vomiting"; "Bloating and gas"; "Burning sensation"].

Section Page.

Variable b : backend.

(** What Streamlit's RerunException prints; the page never looks at it. *)
Variable rerun_data : string.

(** [st.rerun()] stops the script run by raising RerunException, which
    derives from [BaseException] only. *)
Definition st_rerun : ui unit := raise (mkExn BaseExceptionOnly rerun_data).

(** [render_input_area], the loop over the quick symptom buttons, from
    index [i] on; [clicked j] is what the button with key [quick_j]
    returns. *)
Fixpoint quick_symptom_buttons (clicked : nat -> bool) (i : nat)
    (symptoms : list string) : ui unit :=
  match symptoms with
  | [] => ret tt
  | symptom :: rest =>
      (if clicked i then
         send_message b ("I'm experiencing " ++ str_lower symptom) ;;
         st_rerun
       else ret tt) ;;
      quick_symptom_buttons clicked (S i) rest
  end.

(** [render_input_area], the test after the form; [submitted] and
    [user_input] are what [st.form_submit_button] and [st.text_input]
    return. *)
Definition submit_chat_form (submitted : bool) (user_input : string) : ui unit :=
  if submitted && truthy (PyStr user_input) then
    send_message b user_input ;;
    st_rerun
  else ret tt.

End Page.

(** ** More sample backends *)

(** The session endpoint works, the chat endpoint times out. *)
Definition slow_backend : backend := fun r =>
  if (url r =? API_BASE_URL ++ "/session")%string then
    ok (PyDict [("session_id", PyStr "s-1")])
  else Raises (mkExn OtherException "Read timed out.").

(** The chat endpoint answers with a reply but no suggestions; the session
    endpoint answers with an empty object. *)
Definition terse_backend : backend := fun r =>
  if (url r =? API_BASE_URL ++ "/session")%string then ok (PyDict [])
  else ok (PyDict [("response", PyStr "Tell me more")]).

(** The session endpoint hands out the empty string as id. *)
Definition blank_id_backend : backend := fun _ =>
  ok (PyDict [("session_id", PyStr "")]).


(** ** Running the methods *)

Ltac unfold_ui :=
  unfold create_session, echo_and_exchange, try_except, requests_post, response_json,
    st_error, time_sleep, messages_append, set_session_id, set_messages,
    set_suggestions, modify, get_state, emit, lift, bind, ret, raise.

Ltac close_trace :=
  simpl; repeat rewrite <- app_assoc; simpl;
  repeat first [eexists | split]; try reflexivity;
  simpl; intros; intuition discriminate.

Lemma create_session_unreachable b w :
  transport_error_of (b session_request) = Some Unreachable ->
  create_session b w =
    (Returned tt,
     {| state := state w;
        trace := trace w ++ [Post session_request;
                             StError "Connection Error: Could not connect to the API server."] |}).
Proof.
  unfold transport_error_of. intros H. unfold_ui.
  destruct (b session_request) as [r | [cls text]]; simpl in *.
  - destruct (status_code r =? 200); discriminate.
  - destruct cls; try discriminate. simpl. rewrite <- app_assoc. reflexivity.
Qed.

Lemma create_session_rejected b w status :
  transport_error_of (b session_request) = Some (BackendRejected status) ->
  create_session b w =
    (Returned tt,
     {| state := state w;
        trace := trace w ++ [Post session_request;
                             StError "Failed to create a new session. Please ensure the backend is running."] |}).
Proof.
  unfold transport_error_of. intros H. unfold_ui.
  destruct (b session_request) as [r | [cls text]]; simpl in *.
  - destruct (status_code r =? 200); try discriminate.
    simpl. rewrite <- app_assoc. reflexivity.
  - destruct cls; discriminate.
Qed.

Lemma create_session_failed b w k :
  transport_error_of (b session_request) = Some k ->
  exists banner,
    create_session b w =
      (Returned tt,
       {| state := state w;
          trace := trace w ++ [Post session_request; StError banner] |}).
Proof.
  intros H. destruct k as [| status].
  - rewrite create_session_unreachable by exact H. eauto.
  - rewrite (create_session_rejected b w status) by exact H. eauto.
Qed.

Lemma create_session_created b w sid :
  created_session b = Some sid ->
  create_session b w =
    (Returned tt,
     {| state := fresh_session sid; trace := trace w ++ [Post session_request] |}).
Proof.
  unfold created_session. intros H. unfold_ui.
  destruct (b session_request) as [r | e]; simpl in *; try discriminate.
  destruct (status_code r =? 200); try discriminate.
  destruct (json_body r) as [text | body]; try discriminate.
  destruct (subscript body "session_id") as [e | v]; try discriminate.
  injection H as ->. reflexivity.
Qed.

Lemma create_session_state b w :
  state (snd (create_session b w)) = state w \/
  exists sid, state (snd (create_session b w)) = fresh_session sid.
Proof.
  unfold_ui. simpl.
  destruct (b _) as [r | [[] msg]]; simpl; auto.
  destruct (status_code r =? 200); simpl; auto.
  destruct (json_body r) as [msg | body]; simpl; auto.
  destruct (subscript body "session_id") as [[[] msg] | v]; simpl; auto.
  right. exists v. reflexivity.
Qed.

Lemma exchange_rejected b text w status :
  transport_error_of (b (chat_request (PyStr text) (session_id (state w))))
    = Some (BackendRejected status) ->
  echo_and_exchange b text w =
    (Returned tt,
     {| state := with_messages (state w)
                   (messages (state w) ++ [user_message text; error_reply]);
        trace := trace w ++
                 [Post (chat_request (PyStr text) (session_id (state w)));
                  StError ("Error: Received status code " ++ str_int status
                           ++ " from the server.")] |}).
Proof.
  unfold transport_error_of, with_messages. intros H. unfold_ui. simpl.
  destruct (b _) as [r | [cls msg]]; simpl in *.
  - destruct (status_code r =? 200); try discriminate.
    injection H as <-. simpl. repeat rewrite <- app_assoc. reflexivity.
  - destruct cls; discriminate.
Qed.

Lemma exchange_unreachable b text w :
  transport_error_of (b (chat_request (PyStr text) (session_id (state w))))
    = Some Unreachable ->
  echo_and_exchange b text w =
    (Returned tt,
     {| state := with_messages (state w)
                   (messages (state w) ++ [user_message text; cannot_connect_reply]);
        trace := trace w ++
                 [Post (chat_request (PyStr text) (session_id (state w)));
                  StError "Connection Error: Could not send message. Please check the backend server."] |}).
Proof.
  unfold transport_error_of, with_messages. intros H. unfold_ui. simpl.
  destruct (b _) as [r | [cls msg]]; simpl in *.
  - destruct (status_code r =? 200); discriminate.
  - destruct cls; try discriminate.
    simpl. repeat rewrite <- app_assoc. reflexivity.
Qed.

Lemma exchange_failed b text w k :
  transport_error_of (b (chat_request (PyStr text) (session_id (state w)))) = Some k ->
  exists banner,
    echo_and_exchange b text w =
      (Returned tt,
       {| state := with_messages (state w)
                     (messages (state w) ++ [user_message text; failure_reply k]);
          trace := trace w ++
                   [Post (chat_request (PyStr text) (session_id (state w)));
                    StError banner] |}).
Proof.
  intros H. destruct k as [| status].
  - rewrite exchange_unreachable by exact H. eauto.
  - rewrite (exchange_rejected b text w status) by exact H. eauto.
Qed.

Lemma exchange_exchanged b text w reply sugg :
  exchanged b text (session_id (state w)) = Some (reply, sugg) ->
  echo_and_exchange b text w =
    (Returned tt,
     {| state := {| session_id := session_id (state w);
                    messages := messages (state w)
                                ++ [user_message text; assistant_message reply];
                    suggestions := sugg |};
        trace := trace w ++ [Post (chat_request (PyStr text) (session_id (state w)))] |}).
Proof.
  unfold exchanged. intros H. unfold_ui. simpl.
  destruct (b _) as [r | e]; simpl in *; try discriminate.
  destruct (status_code r =? 200); try discriminate.
  destruct (json_body r) as [msg | body]; try discriminate.
  destruct (subscript body "response") as [e | v]; try discriminate.
  destruct (subscript body "suggestions") as [e | v']; try discriminate.
  injection H as -> ->. simpl. repeat rewrite <- app_assoc. reflexivity.
Qed.

Lemma exchange_session_id b text w :
  session_id (state (snd (echo_and_exchange b text w))) = session_id (state w).
Proof.
  unfold_ui. simpl.
  destruct (b _) as [r | [[] msg]]; simpl; try reflexivity.
  destruct (status_code r =? 200); simpl; try reflexivity.
  destruct (json_body r) as [msg | body]; simpl; try reflexivity.
  destruct (subscript body "response") as [[[] msg] | v]; simpl; try reflexivity.
  destruct (subscript body "suggestions") as [[[] msg] | v']; simpl; reflexivity.
Qed.

Lemma send_message_active b text w :
  has_session (state w) -> send_message b text w = echo_and_exchange b text w.
Proof.
  unfold has_session, send_message, bind, get_state. intros ->. reflexivity.
Qed.

Lemma send_message_inactive b text w :
  no_session (state w) ->
  send_message b text w =
    match create_session b w with
    | (Returned _, w1) =>
        let w2 := {| state := state w1; trace := trace w1 ++ [Sleep 500] |} in
        if truthy (session_id (state w1)) then echo_and_exchange b text w2
        else (Returned tt, w2)
    | (Raised e, w1) => (Raised e, w1)
    end.
Proof.
  unfold no_session, send_message. intros H.
  unfold bind at 1. unfold get_state at 1. simpl. rewrite H. simpl.
  unfold bind at 1. destruct (create_session b w) as [[[] | e] w1]; try reflexivity.
  unfold bind, time_sleep, emit, get_state, ret. simpl.
  destruct (truthy (session_id (state w1))); reflexivity.
Qed.

Lemma send_message_aborted b text w k :
  no_session (state w) ->
  transport_error_of (b session_request) = Some k ->
  exists banner,
    send_message b text w =
      (Returned tt,
       {| state := state w;
          trace := trace w ++ [Post session_request; StError banner; Sleep 500] |}).
Proof.
  intros Hno Hk. rewrite send_message_inactive by assumption.
  destruct k as [| status].
  - rewrite create_session_unreachable by assumption. simpl.
    unfold no_session in Hno. rewrite Hno. rewrite <- app_assoc. simpl. eauto.
  - rewrite (create_session_rejected _ _ status) by assumption. simpl.
    unfold no_session in Hno. rewrite Hno. rewrite <- app_assoc. simpl. eauto.
Qed.

(** ** What a call adds to the trace *)

Lemma effects_app w w' l : trace w' = (trace w ++ l)%list -> effects w w' = l.
Proof.
  unfold effects. intros ->. induction (trace w) as [| e t IH]; simpl; auto.
Qed.

Lemma effects_mk w s l : effects w {| state := s; trace := trace w ++ l |} = l.
Proof. apply effects_app. reflexivity. Qed.

Lemma create_session_trace b w :
  exists rest,
    trace (snd (create_session b w)) = (trace w ++ Post session_request :: rest)%list /\
    forall r, ~ In (Post r) rest.
Proof.
  unfold_ui. simpl.
  destruct (b _) as [r | [[] msg]]; try close_trace.
  destruct (status_code r =? 200); try close_trace.
  destruct (json_body r) as [msg | body]; try close_trace.
  destruct (subscript body "session_id") as [[[] msg] | v]; close_trace.
Qed.

Lemma exchange_echo b text w :
  exists later rest,
    messages (state (snd (echo_and_exchange b text w)))
      = (messages (state w) ++ user_message text :: later)%list /\
    trace (snd (echo_and_exchange b text w))
      = (trace w ++ Post (chat_request (PyStr text) (session_id (state w))) :: rest)%list /\
    forall r, ~ In (Post r) rest.
Proof.
  unfold_ui. simpl.
  destruct (b _) as [r | [[] msg]]; try close_trace.
  destruct (status_code r =? 200); try close_trace.
  destruct (json_body r) as [msg | body]; try close_trace.
  destruct (subscript body "response") as [[[] msg] | v]; try close_trace.
  destruct (subscript body "suggestions") as [[[] msg] | v']; close_trace.
Qed.

(** ** The session invariant *)

Lemma create_session_invariant b w :
  session_invariant (state w) -> session_invariant (state (snd (create_session b w))).
Proof.
  intros Hinv. destruct (create_session_state b w) as [-> | [sid ->]]; auto.
  intros _. split; reflexivity.
Qed.

Lemma exchange_invariant b text w :
  has_session (state w) -> session_invariant (state (snd (echo_and_exchange b text w))).
Proof.
  unfold has_session, session_invariant, no_session. intros Hs Hno.
  rewrite exchange_session_id in Hno. congruence.
Qed.

Lemma send_message_invariant b text w :
  session_invariant (state w) -> session_invariant (state (snd (send_message b text w))).
Proof.
  intros Hinv. destruct (truthy (session_id (state w))) eqn:Hs.
  - rewrite send_message_active by exact Hs. apply exchange_invariant. exact Hs.
  - rewrite send_message_inactive by exact Hs.
    pose proof (create_session_invariant b w Hinv) as Hc.
    destruct (create_session b w) as [[[] | e] w1]; simpl in *; auto.
    destruct (truthy (session_id (state w1))) eqn:Hs1; simpl; auto.
    apply exchange_invariant. exact Hs1.
Qed.

Lemma run_invariant b o w :
  session_invariant (state w) -> session_invariant (state (snd (run b o w))).
Proof.
  destruct o; simpl.
  - apply create_session_invariant.
  - apply send_message_invariant.
  - apply create_session_invariant.
Qed.

(** C1. In every world reachable from start-up by calls of [create_session],
    [send_message] and the reset button, against any backends, a session id
    that fails the test [if not st.session_state.session_id] (it is [None] or
    another falsy value) comes with an empty message log and an empty
    suggestion list. *)
Theorem absent_session_has_empty_log w :
  reachable w ->
  no_session (state w) ->
  messages (state w) = [] /\ suggestions (state w) = PyList [].
Proof.
  intros Hr. change (session_invariant (state w)).
  induction Hr as [| b o w Hr IH | w Hr IH].
  - intros _. split; reflexivity.
  - apply run_invariant. exact IH.
  - exact IH.
Qed.

Lemma absent_session_has_empty_log_witness :
  let w := snd (run forgetful_backend Reset
                  (snd (run scenario_backend (SendMessage "I have sharp pain")
                          initial_world))) in
  reachable w /\ no_session (state w) /\
  messages (state w) = [] /\ suggestions (state w) = PyList [].
Proof.
  intros w.
  assert (Hr : reachable w) by (repeat apply reachable_run; apply reachable_init).
  assert (Hn : no_session (state w)) by reflexivity.
  split; [exact Hr | split; [exact Hn |]].
  exact (absent_session_has_empty_log w Hr Hn).
Defined.

(** ** Transport errors *)

(** C2. When [send_message] is called without a session and the session
    request meets a transport error (connection error or a status other than
    200), it returns with the session state exactly as it was, so the user's
    text is not appended and there is still no session, and all it did was
    the session request, one error banner and the pause: no chat request. *)
Theorem send_message_without_session_aborts b text w k :
  no_session (state w) ->
  transport_error_of (b session_request) = Some k ->
  exists banner,
    send_message b text w =
      (Returned tt,
       {| state := state w;
          trace := trace w ++ [Post session_request; StError banner; Sleep 500] |}).
Proof. apply send_message_aborted. Qed.

Lemma send_message_without_session_aborts_witness :
  no_session (state initial_world) /\
  transport_error_of (down_backend session_request) = Some Unreachable /\
  exists banner,
    send_message down_backend "I have sharp pain" initial_world =
      (Returned tt,
       {| state := state initial_world;
          trace := trace initial_world ++
                   [Post session_request; StError banner; Sleep 500] |}).
Proof.
  split; [reflexivity | split; [reflexivity |]].
  apply (send_message_without_session_aborts down_backend "I have sharp pain"
           initial_world Unreachable); reflexivity.
Defined.

Lemma create_session_error_handled b w r k :
  In (Post r) (effects w (snd (create_session b w))) ->
  transport_error_of (b r) = Some k ->
  fst (create_session b w) = Returned tt /\
  (exists text, In (StError text) (effects w (snd (create_session b w)))) /\
  r = session_request /\ state (snd (create_session b w)) = state w.
Proof.
  intros Hin Hk.
  destruct (create_session_trace b w) as [rest [Ht Hrest]].
  rewrite (effects_app _ _ _ Ht) in Hin.
  destruct Hin as [Hr | Hin]; [| elim (Hrest _ Hin)].
  injection Hr as <-.
  destruct (create_session_failed b w k Hk) as [banner ->]. simpl.
  rewrite effects_mk.
  repeat split. exists banner. simpl. auto.
Qed.

Lemma exchange_error_handled b text w r k :
  In (Post r) (effects w (snd (echo_and_exchange b text w))) ->
  transport_error_of (b r) = Some k ->
  fst (echo_and_exchange b text w) = Returned tt /\
  (exists banner, In (StError banner) (effects w (snd (echo_and_exchange b text w)))) /\
  r = chat_request (PyStr text) (session_id (state w)) /\
  state (snd (echo_and_exchange b text w))
    = with_messages (state w) (messages (state w) ++ [user_message text; failure_reply k]).
Proof.
  intros Hin Hk.
  destruct (exchange_echo b text w) as [later [rest [_ [Ht Hrest]]]].
  rewrite (effects_app _ _ _ Ht) in Hin.
  destruct Hin as [Hr | Hin]; [| elim (Hrest _ Hin)].
  injection Hr as <-.
  destruct (exchange_failed b text w k Hk) as [banner ->]. simpl.
  rewrite effects_mk.
  repeat split. exists banner. simpl. auto.
Qed.

Lemma send_message_error_handled b text w r k :
  In (Post r) (effects w (snd (send_message b text w))) ->
  transport_error_of (b r) = Some k ->
  fst (send_message b text w) = Returned tt /\
  (exists banner, In (StError banner) (effects w (snd (send_message b text w)))) /\
  ((r = session_request /\ state (snd (send_message b text w)) = state w) \/
   (exists older,
       r = chat_request (PyStr text) (session_id (state (snd (send_message b text w)))) /\
       messages (state (snd (send_message b text w)))
         = (older ++ [user_message text; failure_reply k])%list)).
Proof.
  intros Hin Hk. destruct (truthy (session_id (state w))) eqn:Hs.
  - rewrite send_message_active in * by exact Hs.
    destruct (exchange_error_handled b text w r k Hin Hk) as [Hret [Hban [Hr Hst]]].
    repeat split; auto. right. exists (messages (state w)).
    rewrite Hst. simpl. auto.
  - destruct (transport_error_of (b session_request)) as [k' |] eqn:Hk'.
    + destruct (send_message_aborted b text w k' Hs Hk') as [banner Hrun].
      rewrite Hrun in *. simpl in *. rewrite effects_mk in *.
      repeat split.
      * exists banner. simpl. auto.
      * left. split; [| reflexivity].
        simpl in Hin. destruct Hin as [Hr | [Hr | [Hr | []]]]; try discriminate.
        injection Hr as <-. reflexivity.
    + rewrite send_message_inactive in * by exact Hs.
      destruct (create_session_trace b w) as [rest [Ht Hrest]].
      destruct (create_session b w) as [[[] | e] w1]; simpl in *.
      * destruct (truthy (session_id (state w1))) eqn:Hs1.
        -- set (w2 := {| state := state w1; trace := trace w1 ++ [Sleep 500] |}) in *.
           destruct (exchange_echo b text w2) as [later [rest2 [_ [Ht2 Hrest2]]]].
           assert (Hall : trace (snd (echo_and_exchange b text w2)) =
                          (trace w ++ Post session_request :: rest ++ Sleep 500 ::
                             Post (chat_request (PyStr text) (session_id (state w2))) :: rest2)%list).
           { rewrite Ht2. unfold w2. simpl. rewrite Ht.
             repeat rewrite <- app_assoc. reflexivity. }
           rewrite (effects_app _ _ _ Hall) in *.
           assert (Hr : r = chat_request (PyStr text) (session_id (state w2))).
           { destruct Hin as [Hr | Hin]; [injection Hr as <-; congruence |].
             apply in_app_or in Hin. destruct Hin as [Hin | [Hr | [Hr | Hin]]].
             - elim (Hrest _ Hin).
             - discriminate.
             - injection Hr as <-. reflexivity.
             - elim (Hrest2 _ Hin). }
           subst r. clear Hin Hall.
           destruct (exchange_failed b text w2 k Hk) as [banner Hrun].
           rewrite Hrun in *. simpl in *.
           repeat split.
           ++ exists banner. apply in_cons, in_or_app. right.
              apply app_inv_head in Ht2. injection Ht2 as <-. simpl. auto.
           ++ right. exists (messages (state w1)). auto.
        -- exfalso. rewrite (effects_app w _ (Post session_request :: rest ++ [Sleep 500]))
             in Hin by (simpl; rewrite Ht; rewrite <- app_assoc; reflexivity).
           destruct Hin as [Hr | Hin]; [injection Hr as <-; congruence |].
           apply in_app_or in Hin. destruct Hin as [Hin | [Hr | []]].
           ++ elim (Hrest _ Hin).
           ++ discriminate.
      * exfalso. rewrite (effects_app _ _ _ Ht) in Hin.
        destruct Hin as [Hr | Hin]; [injection Hr as <-; congruence |].
        elim (Hrest _ Hin).
Qed.

(** C3, as amended.  Whenever a request made by an operation meets a
    transport error (connection error or a status other than 200), the
    operation returns normally and shows an error banner.  If the request is
    the chat request of [send_message], the log ends with the user's text
    followed by the assistant's failure reply; if it is the session request,
    the session state is left as it was and no message is logged. *)
Theorem transport_errors_are_reported b o w r k :
  In (Post r) (effects w (snd (run b o w))) ->
  transport_error_of (b r) = Some k ->
  fst (run b o w) = Returned tt /\
  (exists banner, In (StError banner) (effects w (snd (run b o w)))) /\
  ((r = session_request /\ state (snd (run b o w)) = state w) \/
   (exists text older,
       o = SendMessage text /\
       r = chat_request (PyStr text) (session_id (state (snd (run b o w)))) /\
       messages (state (snd (run b o w)))
         = (older ++ [user_message text; failure_reply k])%list)).
Proof.
  intros Hin Hk. destruct o as [| text |]; simpl in *.
  - destruct (create_session_error_handled b w r k Hin Hk) as [Hret [Hban [Hr Hst]]].
    auto.
  - destruct (send_message_error_handled b text w r k Hin Hk)
      as [Hret [Hban [Hleft | [older Hright]]]]; repeat split; auto.
    right. exists text, older. tauto.
  - destruct (create_session_error_handled b w r k Hin Hk) as [Hret [Hban [Hr Hst]]].
    auto.
Qed.

Lemma transport_errors_are_reported_witness :
  let r := chat_request (PyStr "it hurts") (PyStr "s-1") in
  let o := SendMessage "it hurts" in
  In (Post r) (effects active_world (snd (run failing_backend o active_world))) /\
  transport_error_of (failing_backend r) = Some (BackendRejected 500) /\
  fst (run failing_backend o active_world) = Returned tt /\
  (exists banner,
      In (StError banner)
        (effects active_world (snd (run failing_backend o active_world)))) /\
  messages (state (snd (run failing_backend o active_world)))
    = [user_message "hello"; assistant_message (PyStr "Hi");
       user_message "it hurts"; error_reply].
Proof.
  intros r o.
  assert (Hin : In (Post r)
                  (effects active_world (snd (run failing_backend o active_world))))
    by (left; reflexivity).
  assert (Hk : transport_error_of (failing_backend r) = Some (BackendRejected 500))
    by reflexivity.
  pose proof (transport_errors_are_reported failing_backend o active_world r _ Hin Hk)
    as [Hret [Hban _]].
  repeat split; auto.
Defined.

(** C3, as the specification words it, fails: a connection error in
    [create_session] is answered with a banner only, the log stays empty. *)
Lemma session_failure_logs_no_message :
  transport_error_of (down_backend session_request) = Some Unreachable /\
  effects initial_world (snd (run down_backend StartSession initial_world)) =
    [Post session_request;
     StError "Connection Error: Could not connect to the API server."] /\
  messages (state (snd (run down_backend StartSession initial_world))) = [] /\
  ~ every_transport_error_becomes_a_message.
Proof.
  repeat split. intros H.
  destruct (H down_backend StartSession initial_world session_request Unreachable)
    as [_ [_ [older [c [Hlog _]]]]].
  - left. reflexivity.
  - reflexivity.
  - simpl in Hlog. destruct older; discriminate.
Qed.

(** C4. With an active session, [send_message] echoes the user's text into
    the log first.  If the chat request is answered with a status other than
    200, the log then gains the apology, the suggestions stay as they were
    and an error banner with the status is shown; if the request raises a
    connection error, the log gains the cannot-connect reply instead, a
    different message, the suggestions stay as they were and a connection
    banner is shown. *)
Theorem send_message_failed_exchange b text w :
  has_session (state w) ->
  let request := chat_request (PyStr text) (session_id (state w)) in
  (forall status,
      transport_error_of (b request) = Some (BackendRejected status) ->
      send_message b text w =
        (Returned tt,
         {| state := {| session_id := session_id (state w);
                        messages := messages (state w) ++ [user_message text; error_reply];
                        suggestions := suggestions (state w) |};
            trace := trace w ++
                     [Post request;
                      StError ("Error: Received status code " ++ str_int status
                               ++ " from the server.")] |})) /\
  (transport_error_of (b request) = Some Unreachable ->
   send_message b text w =
     (Returned tt,
      {| state := {| session_id := session_id (state w);
                     messages := messages (state w)
                                 ++ [user_message text; cannot_connect_reply];
                     suggestions := suggestions (state w) |};
         trace := trace w ++
                  [Post request;
                   StError "Connection Error: Could not send message. Please check the backend server."] |})) /\
  error_reply <> cannot_connect_reply.
Proof.
  intros Hs request. repeat split.
  - intros status H. rewrite send_message_active by exact Hs.
    apply exchange_rejected. exact H.
  - intros H. rewrite send_message_active by exact Hs.
    apply exchange_unreachable. exact H.
  - discriminate.
Qed.

Lemma send_message_failed_exchange_witness :
  has_session (state active_world) /\
  send_message failing_backend "it hurts" active_world =
    (Returned tt,
     {| state := {| session_id := PyStr "s-1";
                    messages := [user_message "hello"; assistant_message (PyStr "Hi");
                                 user_message "it hurts"; error_reply];
                    suggestions := PyList [PyStr "Any fever?"] |};
        trace := [Post (chat_request (PyStr "it hurts") (PyStr "s-1"));
                  StError "Error: Received status code 500 from the server."] |}) /\
  send_message down_backend "it hurts" active_world =
    (Returned tt,
     {| state := {| session_id := PyStr "s-1";
                    messages := [user_message "hello"; assistant_message (PyStr "Hi");
                                 user_message "it hurts"; cannot_connect_reply];
                    suggestions := PyList [PyStr "Any fever?"] |};
        trace := [Post (chat_request (PyStr "it hurts") (PyStr "s-1"));
                  StError "Connection Error: Could not send message. Please check the backend server."] |}).
Proof.
  assert (Hs : has_session (state active_world)) by reflexivity.
  split; [exact Hs | split].
  - exact (proj1 (send_message_failed_exchange failing_backend "it hurts" active_world Hs)
             500 eq_refl).
  - exact (proj1 (proj2 (send_message_failed_exchange down_backend "it hurts"
                           active_world Hs)) eq_refl).
Defined.

(** C7. When the session request of [create_session] raises a connection
    error, the call returns with the session state exactly as it was (id,
    log and suggestions), and all it did was the request and the connection
    banner. *)
Theorem create_session_unreachable_keeps_state b w :
  transport_error_of (b session_request) = Some Unreachable ->
  fst (run b StartSession w) = Returned tt /\
  state (snd (run b StartSession w)) = state w /\
  effects w (snd (run b StartSession w)) =
    [Post session_request;
     StError "Connection Error: Could not connect to the API server."].
Proof.
  intros H. simpl. rewrite create_session_unreachable by exact H. simpl.
  repeat split. apply effects_app. reflexivity.
Qed.

Lemma create_session_unreachable_keeps_state_witness :
  transport_error_of (down_backend session_request) = Some Unreachable /\
  fst (run down_backend StartSession active_world) = Returned tt /\
  state (snd (run down_backend StartSession active_world)) = state active_world /\
  effects active_world (snd (run down_backend StartSession active_world)) =
    [Post session_request;
     StError "Connection Error: Could not connect to the API server."].
Proof.
  split; [reflexivity |].
  exact (create_session_unreachable_keeps_state down_backend active_world eq_refl).
Defined.

(** ** Successful exchanges *)

(** C5. With an active session, when the chat request is answered with
    status 200 and a body holding reply [reply] and suggestions [sugg],
    [send_message] appends exactly two entries to the log, the user's text
    and then the assistant's reply, and replaces the suggestions by [sugg];
    the session id stays. *)
Theorem send_message_successful_exchange b text w reply sugg :
  has_session (state w) ->
  exchanged b text (session_id (state w)) = Some (reply, sugg) ->
  send_message b text w =
    (Returned tt,
     {| state := {| session_id := session_id (state w);
                    messages := messages (state w)
                                ++ [user_message text; assistant_message reply];
                    suggestions := sugg |};
        trace := trace w ++ [Post (chat_request (PyStr text) (session_id (state w)))] |}).
Proof.
  intros Hs H. rewrite send_message_active by exact Hs.
  apply exchange_exchanged. exact H.
Qed.

Lemma send_message_successful_exchange_witness :
  has_session (state active_world) /\
  exchanged scenario_backend "it hurts" (PyStr "s-1")
    = Some (PyStr "Tell me more", PyList [PyStr "Since when?"; PyStr "Any fever?"]) /\
  send_message scenario_backend "it hurts" active_world =
    (Returned tt,
     {| state := {| session_id := PyStr "s-1";
                    messages := [user_message "hello"; assistant_message (PyStr "Hi");
                                 user_message "it hurts";
                                 assistant_message (PyStr "Tell me more")];
                    suggestions := PyList [PyStr "Since when?"; PyStr "Any fever?"] |};
        trace := [Post (chat_request (PyStr "it hurts") (PyStr "s-1"))] |}).
Proof.
  assert (Hs : has_session (state active_world)) by reflexivity.
  split; [exact Hs | split; [reflexivity |]].
  exact (send_message_successful_exchange scenario_backend "it hurts" active_world
           _ _ Hs eq_refl).
Defined.

(** Scenario A of the specification: no session yet, both requests succeed. *)
Example scenario_A :
  state (snd (send_message scenario_backend "I have sharp pain" initial_world)) =
    {| session_id := PyStr "s-1";
       messages := [user_message "I have sharp pain";
                    assistant_message (PyStr "Tell me more")];
       suggestions := PyList [PyStr "Since when?"; PyStr "Any fever?"] |}.
Proof. reflexivity. Qed.

Lemma send_messages_log calls :
  forall w,
    has_session (state w) ->
    Forall (fun call => exchanged (fst call) (snd call) (session_id (state w)) <> None)
      calls ->
    messages (state (send_messages calls w))
      = (messages (state w) ++ flat_map (exchange_entries (session_id (state w))) calls)%list.
Proof.
  induction calls as [| [b text] calls IH]; intros w Hs Hall; simpl.
  - rewrite app_nil_r. reflexivity.
  - inversion Hall as [| call rest Hcall Hrest]; subst. simpl in Hcall.
    unfold exchange_entries at 1. simpl.
    destruct (exchanged b text (session_id (state w))) as [[reply sugg] |] eqn:He;
      [| congruence].
    rewrite send_message_active by exact Hs.
    rewrite (exchange_exchanged b text w reply sugg He). simpl.
    rewrite IH; simpl; auto.
    rewrite <- app_assoc. reflexivity.
Qed.

Lemma exchange_entries_roles sid calls :
  Forall (fun call => exchanged (fst call) (snd call) sid <> None) calls ->
  map role (flat_map (exchange_entries sid) calls) = alternating (length calls).
Proof.
  induction 1 as [| call calls Hcall Hall IH]; simpl; auto.
  unfold exchange_entries at 1.
  destruct (exchanged (fst call) (snd call) sid) as [[reply sugg] |]; [| congruence].
  simpl. rewrite IH. reflexivity.
Qed.

Lemma alternating_length n : length (alternating n) = (2 * n)%nat.
Proof. induction n as [| n IH]; simpl; auto. rewrite IH. lia. Qed.

(** C6. Starting with a session and an empty log, after N calls of
    [send_message] whose exchanges all succeed the log has exactly 2N
    entries, their roles alternate user, assistant, user, assistant, ...,
    and the entries are the calls' texts and replies in the order of the
    calls, oldest first. *)
Theorem successful_sends_alternate calls w :
  has_session (state w) ->
  messages (state w) = [] ->
  Forall (fun call => exchanged (fst call) (snd call) (session_id (state w)) <> None)
    calls ->
  let log := messages (state (send_messages calls w)) in
  length log = (2 * length calls)%nat /\
  map role log = alternating (length calls) /\
  log = flat_map (exchange_entries (session_id (state w))) calls.
Proof.
  intros Hs Hempty Hall log.
  assert (Hlog : log = flat_map (exchange_entries (session_id (state w))) calls).
  { unfold log. rewrite send_messages_log by assumption. rewrite Hempty. reflexivity. }
  assert (Hroles : map role log = alternating (length calls)).
  { rewrite Hlog. apply exchange_entries_roles. exact Hall. }
  repeat split; auto.
  rewrite <- (length_map role), Hroles. apply alternating_length.
Qed.

Lemma successful_sends_alternate_witness :
  let w := {| state := fresh_session (PyStr "s-1"); trace := [] |} in
  let calls := [(scenario_backend, "I have sharp pain"); (second_backend, "Since when?")] in
  has_session (state w) /\
  messages (state w) = [] /\
  Forall (fun call => exchanged (fst call) (snd call) (session_id (state w)) <> None)
    calls /\
  length (messages (state (send_messages calls w))) = 4%nat /\
  map role (messages (state (send_messages calls w)))
    = ["user"; "assistant"; "user"; "assistant"] /\
  messages (state (send_messages calls w))
    = [user_message "I have sharp pain"; assistant_message (PyStr "Tell me more");
       user_message "Since when?"; assistant_message (PyStr "Please see a doctor")].
Proof.
  intros w calls.
  assert (Hs : has_session (state w)) by reflexivity.
  assert (He : messages (state w) = []) by reflexivity.
  assert (Hall : Forall (fun call =>
                           exchanged (fst call) (snd call) (session_id (state w)) <> None)
                   calls)
    by (repeat constructor; discriminate).
  split; [exact Hs | split; [exact He | split; [exact Hall |]]].
  exact (successful_sends_alternate calls w Hs He Hall).
Defined.

(** ** Reset, the text and the session id *)

(** C8. Two resets in a row, each against a backend whose session request
    succeeds: after the first and after the second the state is the fresh
    one, empty log and empty suggestions, under the id that call's backend
    created, so both states agree except for the id; the session passes the
    presence test whenever the created id is truthy. *)
Theorem reset_twice b1 b2 w sid1 sid2 :
  created_session b1 = Some sid1 ->
  created_session b2 = Some sid2 ->
  let w1 := snd (run b1 Reset w) in
  let w2 := snd (run b2 Reset w1) in
  state w1 = fresh_session sid1 /\
  state w2 = fresh_session sid2 /\
  messages (state w1) = messages (state w2) /\
  suggestions (state w1) = suggestions (state w2) /\
  (truthy sid1 = true -> has_session (state w1)) /\
  (truthy sid2 = true -> has_session (state w2)).
Proof.
  intros H1 H2. simpl. unfold reset.
  rewrite (create_session_created b1 w sid1 H1). simpl.
  rewrite (create_session_created b2 _ sid2 H2). simpl.
  unfold has_session. simpl. repeat split; auto.
Qed.

Lemma reset_twice_witness :
  created_session scenario_backend = Some (PyStr "s-1") /\
  created_session second_backend = Some (PyStr "s-2") /\
  state (snd (run scenario_backend Reset active_world)) = fresh_session (PyStr "s-1") /\
  state (snd (run second_backend Reset (snd (run scenario_backend Reset active_world))))
    = fresh_session (PyStr "s-2").
Proof.
  split; [reflexivity | split; [reflexivity |]].
  pose proof (reset_twice scenario_backend second_backend active_world _ _ eq_refl eq_refl)
    as H.
  split; [exact (proj1 H) | exact (proj1 (proj2 H))].
Defined.

(** Scenario D of the specification: a reset in the middle of a
    conversation empties log and suggestions and installs the new id. *)
Example scenario_D :
  state (snd (run second_backend Reset active_world)) = fresh_session (PyStr "s-2").
Proof. reflexivity. Qed.

(** C9. [send_message] never looks at the text: with an active session, for
    every text, the empty string and blank strings included, the user
    message with that text is appended to the log and the chat request
    carrying that text is posted. *)
Theorem send_message_never_filters_text b text w :
  has_session (state w) ->
  exists later rest,
    messages (state (snd (send_message b text w)))
      = (messages (state w) ++ user_message text :: later)%list /\
    effects w (snd (send_message b text w))
      = Post (chat_request (PyStr text) (session_id (state w))) :: rest.
Proof.
  intros Hs. rewrite send_message_active by exact Hs.
  destruct (exchange_echo b text w) as [later [rest [Hm [Ht _]]]].
  exists later, rest. split; [exact Hm |].
  apply effects_app. exact Ht.
Qed.

Lemma send_message_never_filters_text_witness :
  has_session (state active_world) /\
  exists later rest,
    messages (state (snd (send_message scenario_backend "" active_world)))
      = ([user_message "hello"; assistant_message (PyStr "Hi")]
           ++ user_message "" :: later)%list /\
    effects active_world (snd (send_message scenario_backend "" active_world))
      = Post (chat_request (PyStr "") (PyStr "s-1")) :: rest.
Proof.
  assert (Hs : has_session (state active_world)) by reflexivity.
  split; [exact Hs |].
  exact (send_message_never_filters_text scenario_backend "" active_world Hs).
Defined.

(** The empty text and a blank text run through the whole exchange. *)
Example empty_text_is_sent :
  messages (state (snd (send_message scenario_backend "" active_world))) =
    [user_message "hello"; assistant_message (PyStr "Hi");
     user_message ""; assistant_message (PyStr "Tell me more")] /\
  messages (state (snd (send_message scenario_backend "   " active_world))) =
    [user_message "hello"; assistant_message (PyStr "Hi");
     user_message "   "; assistant_message (PyStr "Tell me more")].
Proof. split; reflexivity. Qed.

(** C10. With an active session, [send_message] leaves the session id as it
    was, whatever the chat request does: a good answer, a malformed one, a
    status other than 200, a connection error or any other exception, caught
    or not. *)
Theorem send_message_keeps_session_id b text w :
  has_session (state w) ->
  session_id (state (snd (send_message b text w))) = session_id (state w).
Proof.
  intros Hs. rewrite send_message_active by exact Hs. apply exchange_session_id.
Qed.

Lemma send_message_keeps_session_id_witness :
  has_session (state active_world) /\
  session_id (state (snd (send_message down_backend "it hurts" active_world)))
    = PyStr "s-1".
Proof.
  assert (Hs : has_session (state active_world)) by reflexivity.
  split; [exact Hs |].
  exact (send_message_keeps_session_id down_backend "it hurts" active_world Hs).
Defined.

(** ** The shape of a call: outcome, requests, banners and log *)

Lemma subscript_raises v key e : subscript v key = inl e -> exn_cls e = OtherException.
Proof.
  destruct v; simpl; try (intros H; injection H as <-; reflexivity).
  destruct (dict_get items key); [discriminate |].
  intros H; injection H as <-; reflexivity.
Qed.

Lemma posts_app l l' : posts (l ++ l') = (posts l ++ posts l')%list.
Proof.
  induction l as [| [r | text | ms] l IH]; simpl; auto. rewrite IH. reflexivity.
Qed.

Lemma banners_app l l' : banners (l ++ l') = (banners l ++ banners l')%list.
Proof.
  induction l as [| [r | text | ms] l IH]; simpl; auto. rewrite IH. reflexivity.
Qed.

Lemma posts_banners bs : posts (map StError bs) = [].
Proof. induction bs; simpl; auto. Qed.

Lemma banners_banners bs : banners (map StError bs) = bs.
Proof. induction bs as [| text bs IH]; simpl; auto. rewrite IH. reflexivity. Qed.

Lemma create_session_shape b w :
  exists bs,
    trace (snd (create_session b w))
      = (trace w ++ Post session_request :: map StError bs)%list /\
    fst (create_session b w) = outcome_of (b session_request) /\
    state (snd (create_session b w))
      = match created_session b with
        | Some sid => fresh_session sid
        | None => state w
        end /\
    match created_session b, outcome_of (b session_request) with
    | None, Returned _ => exists text, bs = [text]
    | _, _ => bs = []
    end.
Proof.
  unfold created_session, outcome_of. unfold_ui. simpl.
  destruct (b session_request) as [r | [[] msg]]; simpl;
    try (eexists [_]; simpl; repeat rewrite <- app_assoc; simpl; repeat split; eauto; fail);
    try (exists []; simpl; repeat rewrite <- app_assoc; simpl; repeat split; eauto; fail).
  destruct (status_code r =? 200); simpl;
    try (eexists [_]; simpl; repeat rewrite <- app_assoc; simpl; repeat split; eauto; fail).
  destruct (json_body r) as [msg | body]; simpl;
    try (eexists [_]; simpl; repeat rewrite <- app_assoc; simpl; repeat split; eauto; fail).
  destruct (subscript body "session_id") as [e | v] eqn:He; simpl.
  - apply subscript_raises in He. rewrite He.
    eexists [_]; simpl; repeat rewrite <- app_assoc; simpl; repeat split; eauto.
  - exists []; simpl; repeat rewrite <- app_assoc; simpl; repeat split; eauto.
Qed.

Ltac shape_leaf :=
  simpl; repeat rewrite <- app_assoc; simpl; repeat split; eauto;
  try congruence; try (simpl; lia); try (right; eexists; reflexivity).

Lemma exchange_shape b text w :
  let request := chat_request (PyStr text) (session_id (state w)) in
  exists bs added,
    trace (snd (echo_and_exchange b text w))
      = (trace w ++ Post request :: map StError bs)%list /\
    fst (echo_and_exchange b text w) = outcome_of (b request) /\
    messages (state (snd (echo_and_exchange b text w)))
      = (messages (state w) ++ user_message text :: added)%list /\
    (length bs <= 1)%nat /\
    (added = [] \/ exists c, added = [assistant_message c]) /\
    (bs = [] -> outcome_of (b request) = Returned tt ->
     exchanged b text (session_id (state w)) <> None).
Proof.
  unfold exchanged, outcome_of. unfold_ui. simpl.
  destruct (b _) as [r | [[] msg]]; simpl.
  - destruct (status_code r =? 200); simpl.
    + destruct (json_body r) as [msg | body]; simpl.
      * eexists [_], []; shape_leaf.
      * destruct (subscript body "response") as [e | v] eqn:He; simpl.
        -- apply subscript_raises in He. rewrite He. eexists [_], []; shape_leaf.
        -- destruct (subscript body "suggestions") as [e | v'] eqn:He'; simpl.
           ++ apply subscript_raises in He'. rewrite He'.
              eexists [_], [assistant_message v]; shape_leaf.
           ++ exists [], [assistant_message v]; shape_leaf.
    + eexists [_], [error_reply]; shape_leaf.
  - eexists [_], [cannot_connect_reply]; shape_leaf.
  - eexists [_], []; shape_leaf.
  - exists [], []; shape_leaf.
Qed.

Lemma outcome_of_raised p e :
  outcome_of p = Raised e -> p = Raises e /\ exn_cls e = BaseExceptionOnly.
Proof.
  destruct p as [r | [cls msg]]; simpl; [discriminate |].
  destruct cls; try discriminate. intros H; injection H as <-. auto.
Qed.

Lemma created_session_responds b sid :
  created_session b = Some sid -> exists r, b session_request = Responds r.
Proof.
  unfold created_session. destruct (b session_request) as [r | e]; [eauto | discriminate].
Qed.

Lemma banner_count (bs : list string) :
  match bs with [] => True | [_] => True | _ => False end <-> (length bs <= 1)%nat.
Proof.
  destruct bs as [| x [| y bs]]; simpl; split; intros; auto; lia.
Qed.

Lemma send_message_shape b text w :
  exists eff,
    trace (snd (send_message b text w)) = (trace w ++ eff)%list /\
    posts eff =
      ((if truthy (session_id (state w)) then [] else [session_request]) ++
       (if truthy (session_id (state (snd (send_message b text w))))
        then [chat_request (PyStr text)
                (session_id (state (snd (send_message b text w))))]
        else []))%list /\
    (length (banners eff) <= 1)%nat /\
    (forall e, fst (send_message b text w) = Raised e ->
       exn_cls e = BaseExceptionOnly /\
       exists earlier r, posts eff = (earlier ++ [r])%list /\ b r = Raises e).
Proof.
  destruct (truthy (session_id (state w))) eqn:Hs.
  - rewrite send_message_active by exact Hs.
    destruct (exchange_shape b text w) as [bs [added [Ht [Hout [_ [Hbs _]]]]]].
    rewrite exchange_session_id, Hs.
    eexists. split; [exact Ht |]. simpl. rewrite posts_banners, banners_banners.
    repeat split; auto.
    + match goal with H : _ = Raised _ |- _ =>
        rewrite Hout in H; apply outcome_of_raised in H; tauto end.
    + match goal with H : _ = Raised _ |- _ =>
        rewrite Hout in H; apply outcome_of_raised in H end.
      exists [], (chat_request (PyStr text) (session_id (state w))). tauto.
  - rewrite send_message_inactive by exact Hs.
    destruct (create_session_shape b w) as [bs1 [Ht1 [Hout1 [Hst1 Hbs1]]]].
    destruct (create_session b w) as [[[] | e] w1]; simpl in Ht1, Hout1, Hst1; simpl.
    + destruct (truthy (session_id (state w1))) eqn:Hs1.
      * set (w2 := {| state := state w1; trace := trace w1 ++ [Sleep 500] |}).
        destruct (exchange_shape b text w2) as [bs2 [added [Ht2 [Hout2 [_ [Hbs2 _]]]]]].
        rewrite exchange_session_id. simpl. rewrite Hs1.
        assert (Hcreated : bs1 = []).
        { destruct (created_session b) as [sid |]; [exact Hbs1 |].
          rewrite Hst1 in Hs1. congruence. }
        subst bs1. simpl in Ht1.
        exists (Post session_request :: Sleep 500 ::
                Post (chat_request (PyStr text) (session_id (state w1))) ::
                map StError bs2).
        split.
        { rewrite Ht2. unfold w2. simpl. rewrite Ht1.
          repeat rewrite <- app_assoc. reflexivity. }
        simpl. rewrite posts_banners, banners_banners. repeat split; auto.
        -- match goal with H : _ = Raised _ |- _ =>
             rewrite Hout2 in H; apply outcome_of_raised in H; tauto end.
        -- match goal with H : _ = Raised _ |- _ =>
             rewrite Hout2 in H; apply outcome_of_raised in H end.
           exists [session_request], (chat_request (PyStr text) (session_id (state w1))).
           tauto.
      * simpl. rewrite Hs1.
        exists (Post session_request :: map StError bs1 ++ [Sleep 500])%list.
        split; [rewrite Ht1, <- app_assoc; reflexivity |].
        simpl. rewrite posts_app, banners_app, posts_banners, banners_banners. simpl.
        rewrite app_nil_r. repeat split; try discriminate.
        apply banner_count.
        destruct (created_session b); [subst; exact I |].
        rewrite <- Hout1 in Hbs1. destruct Hbs1 as [t ->]. exact I.
    + symmetry in Hout1. apply outcome_of_raised in Hout1 as [Hb Hcls].
      assert (Hnone : created_session b = None)
        by (unfold created_session; rewrite Hb; reflexivity).
      rewrite Hnone in *. rewrite Hst1, Hs.
      unfold outcome_of in Hbs1. rewrite Hb, Hcls in Hbs1. subst bs1.
      exists [Post session_request]. simpl. repeat split; auto.
      * match goal with H : Raised _ = Raised _ |- _ => injection H as <- end.
        exact Hcls.
      * match goal with H : Raised _ = Raised _ |- _ => injection H as <- end.
        exists [], session_request. auto.
Qed.

Lemma run_shape b o w :
  exists eff,
    trace (snd (run b o w)) = (trace w ++ eff)%list /\
    (1 <= length (posts eff) <= 2)%nat /\
    (length (banners eff) <= 1)%nat /\
    (forall r, In r (posts eff) ->
       r = session_request \/
       exists text, r = chat_request (PyStr text) (session_id (state (snd (run b o w)))) /\
                    truthy (session_id (state (snd (run b o w)))) = true) /\
    (forall e, fst (run b o w) = Raised e ->
       exn_cls e = BaseExceptionOnly /\
       exists earlier r, posts eff = (earlier ++ [r])%list /\ b r = Raises e).
Proof.
  assert (Hcreate :
    exists eff,
      trace (snd (create_session b w)) = (trace w ++ eff)%list /\
      (1 <= length (posts eff) <= 2)%nat /\
      (length (banners eff) <= 1)%nat /\
      (forall r, In r (posts eff) ->
         r = session_request \/
         exists text,
           r = chat_request (PyStr text) (session_id (state (snd (create_session b w)))) /\
           truthy (session_id (state (snd (create_session b w)))) = true) /\
      (forall e, fst (create_session b w) = Raised e ->
         exn_cls e = BaseExceptionOnly /\
         exists earlier r, posts eff = (earlier ++ [r])%list /\ b r = Raises e)).
  { destruct (create_session_shape b w) as [bs [Ht [Hout [_ Hbs]]]].
    exists (Post session_request :: map StError bs). split; [exact Ht |].
    simpl. rewrite posts_banners, banners_banners. simpl.
    split; [lia |]. split; [| split].
    - apply banner_count.
      destruct (created_session b); [subst; exact I |].
      destruct (outcome_of (b session_request)); [destruct Hbs as [t ->] | subst]; exact I.
    - intros r [<- | []]. auto.
    - intros e He. rewrite Hout in He. apply outcome_of_raised in He.
      split; [tauto |]. exists [], session_request. tauto. }
  destruct o as [| text |]; simpl; try exact Hcreate.
  destruct (send_message_shape b text w) as [eff [Ht [Hposts [Hbs Hraise]]]].
  exists eff. split; [exact Ht |]. rewrite Hposts.
  split; [| split; [exact Hbs | split]].
  - destruct (truthy (session_id (state w))) eqn:Hs.
    + rewrite send_message_active, exchange_session_id, Hs by exact Hs. simpl. lia.
    + destruct (truthy (session_id (state (snd (send_message b text w))))); simpl; lia.
  - intros r Hin. apply in_app_or in Hin. destruct Hin as [Hin | Hin].
    + destruct (truthy (session_id (state w))); [destruct Hin |].
      destruct Hin as [<- | []]. auto.
    + destruct (truthy (session_id (state (snd (send_message b text w))))) eqn:Hs';
        [| destruct Hin].
      destruct Hin as [<- | []]. right. exists text. auto.
  - intros e He. destruct (Hraise e He) as [Hcls Hlast]. rewrite <- Hposts. auto.
Qed.

Lemma run_preserves (P : session_state -> Prop) :
  (forall sid, P (fresh_session sid)) ->
  (forall b text w, P (state w) -> has_session (state w) ->
                    P (state (snd (echo_and_exchange b text w)))) ->
  forall b o w, P (state w) -> P (state (snd (run b o w))).
Proof.
  intros Hfresh Hexch b o w HP.
  assert (Hcreate : P (state (snd (create_session b w)))).
  { destruct (create_session_state b w) as [-> | [sid ->]]; auto. }
  destruct o as [| text |]; simpl; auto.
  destruct (truthy (session_id (state w))) eqn:Hs.
  - rewrite send_message_active by exact Hs. apply Hexch; assumption.
  - rewrite send_message_inactive by exact Hs.
    destruct (create_session b w) as [[[] | e] w1]; simpl in *; auto.
    destruct (truthy (session_id (state w1))) eqn:Hs1; simpl; auto.
Qed.

Lemma reachable_preserves (P : session_state -> Prop) :
  (forall sid, P (fresh_session sid)) ->
  (forall b text w, P (state w) -> has_session (state w) ->
                    P (state (snd (echo_and_exchange b text w)))) ->
  forall w, reachable w -> P (state w).
Proof.
  intros Hfresh Hexch w Hr. induction Hr as [| b o w Hr IH | w Hr IH].
  - apply (Hfresh PyNone).
  - apply run_preserves; assumption.
  - exact IH.
Qed.

Lemma answers_follow_questions_app log turn :
  (forall after, answers_follow_questions after turn = true) ->
  forall after,
    answers_follow_questions after log = true ->
    answers_follow_questions after (log ++ turn) = true.
Proof.
  intros Hturn. induction log as [| m log IH]; intros after H; simpl in *.
  - apply Hturn.
  - destruct (role m =? "user")%string; [auto |].
    destruct (role m =? "assistant")%string; [| discriminate].
    apply andb_true_iff in H as [-> H]. simpl. auto.
Qed.

Lemma exchange_suggestions b text w :
  suggestions (state (snd (echo_and_exchange b text w)))
    = match exchanged b text (session_id (state w)) with
      | Some (_, sugg) => sugg
      | None => suggestions (state w)
      end.
Proof.
  unfold exchanged. unfold_ui. simpl.
  destruct (b _) as [r | [[] msg]]; simpl; try reflexivity.
  destruct (status_code r =? 200); simpl; try reflexivity.
  destruct (json_body r) as [msg | body]; simpl; try reflexivity.
  destruct (subscript body "response") as [e | v] eqn:He; simpl.
  - apply subscript_raises in He. rewrite He. reflexivity.
  - destruct (subscript body "suggestions") as [e | v'] eqn:He'; simpl; [| reflexivity].
    apply subscript_raises in He'. rewrite He'. reflexivity.
Qed.

(** ** More about [create_session] *)

(** X1. [create_session] is all or nothing on the session state: when the
    backend answers 200 with a body that has a ["session_id"] entry, the
    state becomes the fresh one under that id (empty log, empty
    suggestions); in every other case (another status, a body that does not
    decode or lacks the entry, any exception) the state is exactly the one
    before the call. *)
Theorem create_session_all_or_nothing b w :
  state (snd (create_session b w))
    = match created_session b with
      | Some sid => fresh_session sid
      | None => state w
      end.
Proof.
  destruct (create_session_shape b w) as [bs [_ [_ [Hst _]]]]. exact Hst.
Qed.

(** X2. A 200 answer to the session request whose body cannot be
    subscripted with ["session_id"] (the entry is missing, or the body is not
    an object) creates no session: the call returns, the state is untouched
    and the banner quotes the exception, for a missing entry the key in
    quotes. *)
Theorem create_session_without_id b w r body e :
  b session_request = Responds r ->
  status_code r = 200 ->
  json_body r = inr body ->
  subscript body "session_id" = inl e ->
  create_session b w =
    (Returned tt,
     {| state := state w;
        trace := trace w ++ [Post session_request;
                             StError ("An unexpected error occurred: " ++ exn_str e)] |}).
Proof.
  intros Hb Hstatus Hbody He. unfold_ui. simpl.
  rewrite Hb. simpl. rewrite Hstatus. simpl. rewrite Hbody. simpl. rewrite He.
  rewrite (subscript_raises _ _ _ He). simpl.
  rewrite <- app_assoc. reflexivity.
Qed.

Lemma create_session_without_id_witness :
  create_session terse_backend active_world =
    (Returned tt,
     {| state := state active_world;
        trace := [Post session_request;
                  StError "An unexpected error occurred: 'session_id'"] |}).
Proof.
  exact (create_session_without_id terse_backend active_world
           {| status_code := 200; json_body := inr (PyDict []) |} (PyDict [])
           (mkExn OtherException "'session_id'") eq_refl eq_refl eq_refl eq_refl).
Defined.

(** ** Requests, banners and exceptions of an operation *)

(** X3. Every operation posts at least one and at most two requests and
    shows at most one error banner, whatever the backend does. *)
Theorem operation_requests_and_banners b o w :
  let eff := effects w (snd (run b o w)) in
  (1 <= length (posts eff) <= 2)%nat /\ (length (banners eff) <= 1)%nat.
Proof.
  destruct (run_shape b o w) as [eff [Ht [Hposts [Hbs _]]]].
  simpl. rewrite (effects_app _ _ _ Ht). auto.
Qed.



(** X5. The requests of [send_message] are decided by the session id before
    and after the call: the session request is posted exactly when the call
    starts without a session, and the chat request, carrying the text and
    the id the state holds at the end, exactly when the state holds a
    session at the end.  With a session at the start there is never a
    session request, and the chat request never goes out without a truthy
    id. *)
Theorem send_message_requests b text w :
  let w' := snd (send_message b text w) in
  posts (effects w w') =
    ((if truthy (session_id (state w)) then [] else [session_request]) ++
     (if truthy (session_id (state w'))
      then [chat_request (PyStr text) (session_id (state w'))]
      else []))%list.
Proof.
  destruct (send_message_shape b text w) as [eff [Ht [Hposts _]]].
  simpl. rewrite (effects_app _ _ _ Ht). exact Hposts.
Qed.

(** ** More about [send_message] with a session *)

(** X6. A 200 answer with a reply but no ["suggestions"] entry is applied in
    part: the user's text and the assistant's reply are both logged, the
    suggestions keep their old value, and a banner quotes the exception. *)
Theorem send_message_reply_without_suggestions b text w r body reply e :
  has_session (state w) ->
  b (chat_request (PyStr text) (session_id (state w))) = Responds r ->
  status_code r = 200 ->
  json_body r = inr body ->
  subscript body "response" = inr reply ->
  subscript body "suggestions" = inl e ->
  send_message b text w =
    (Returned tt,
     {| state := {| session_id := session_id (state w);
                    messages := messages (state w)
                                ++ [user_message text; assistant_message reply];
                    suggestions := suggestions (state w) |};
        trace := trace w ++
                 [Post (chat_request (PyStr text) (session_id (state w)));
                  StError ("An unexpected error occurred while sending the message: "
                           ++ exn_str e)] |}).
Proof.
  intros Hs Hb Hstatus Hbody Hreply He. rewrite send_message_active by exact Hs.
  unfold_ui. simpl. rewrite Hb. simpl. rewrite Hstatus. simpl. rewrite Hbody. simpl.
  rewrite Hreply. simpl. rewrite He. rewrite (subscript_raises _ _ _ He). simpl.
  repeat rewrite <- app_assoc. reflexivity.
Qed.

Lemma send_message_reply_without_suggestions_witness :
  has_session (state active_world) /\
  send_message terse_backend "it hurts" active_world =
    (Returned tt,
     {| state := {| session_id := PyStr "s-1";
                    messages := [user_message "hello"; assistant_message (PyStr "Hi");
                                 user_message "it hurts";
                                 assistant_message (PyStr "Tell me more")];
                    suggestions := PyList [PyStr "Any fever?"] |};
        trace := [Post (chat_request (PyStr "it hurts") (PyStr "s-1"));
                  StError "An unexpected error occurred while sending the message: 'suggestions'"] |}).
Proof.
  assert (Hs : has_session (state active_world)) by reflexivity.
  split; [exact Hs |].
  exact (send_message_reply_without_suggestions terse_backend "it hurts" active_world
           {| status_code := 200;
              json_body := inr (PyDict [("response", PyStr "Tell me more")]) |}
           _ _ (mkExn OtherException "'suggestions'")
           Hs eq_refl eq_refl eq_refl eq_refl eq_refl).
Defined.

(** X7. When the exchange breaks before there is a reply (the request
    raises something other than a connection error, such as a timeout; the
    body of a 200 answer does not decode; or it has no ["response"] entry),
    the user's text stays in the log without any assistant entry after it,
    the suggestions are untouched and a banner quotes the exception. *)
Theorem send_message_unanswered b text w reason :
  has_session (state w) ->
  unanswered (b (chat_request (PyStr text) (session_id (state w)))) reason ->
  send_message b text w =
    (Returned tt,
     {| state := {| session_id := session_id (state w);
                    messages := messages (state w) ++ [user_message text];
                    suggestions := suggestions (state w) |};
        trace := trace w ++
                 [Post (chat_request (PyStr text) (session_id (state w)));
                  StError ("An unexpected error occurred while sending the message: "
                           ++ reason)] |}).
Proof.
  intros Hs Hu. rewrite send_message_active by exact Hs.
  unfold_ui. simpl.
  inversion Hu as [msg Hb | r msg Hstatus Hbody Hb | r body e Hstatus Hbody He Hb];
    subst; simpl.
  - repeat rewrite <- app_assoc. reflexivity.
  - rewrite Hstatus. simpl. rewrite Hbody. simpl.
    repeat rewrite <- app_assoc. reflexivity.
  - rewrite Hstatus. simpl. rewrite Hbody. simpl. rewrite He.
    rewrite (subscript_raises _ _ _ He). simpl.
    repeat rewrite <- app_assoc. reflexivity.
Qed.

Lemma send_message_unanswered_witness :
  has_session (state active_world) /\
  unanswered (slow_backend (chat_request (PyStr "it hurts") (PyStr "s-1")))
    "Read timed out." /\
  send_message slow_backend "it hurts" active_world =
    (Returned tt,
     {| state := {| session_id := PyStr "s-1";
                    messages := [user_message "hello"; assistant_message (PyStr "Hi");
                                 user_message "it hurts"];
                    suggestions := PyList [PyStr "Any fever?"] |};
        trace := [Post (chat_request (PyStr "it hurts") (PyStr "s-1"));
                  StError "An unexpected error occurred while sending the message: Read timed out."] |}).
Proof.
  assert (Hs : has_session (state active_world)) by reflexivity.
  assert (Hu : unanswered (slow_backend (chat_request (PyStr "it hurts") (PyStr "s-1")))
                 "Read timed out.") by apply unanswered_raise.
  split; [exact Hs | split; [exact Hu |]].
  exact (send_message_unanswered slow_backend "it hurts" active_world _ Hs Hu).
Defined.

(** X8. With a session, the suggestions after [send_message] are the
    backend's list when the exchange succeeded and the old list in every
    other case. *)
Theorem send_message_suggestions b text w :
  has_session (state w) ->
  suggestions (state (snd (send_message b text w)))
    = match exchanged b text (session_id (state w)) with
      | Some (_, sugg) => sugg
      | None => suggestions (state w)
      end.
Proof.
  intros Hs. rewrite send_message_active by exact Hs. apply exchange_suggestions.
Qed.

Lemma send_message_suggestions_witness :
  has_session (state active_world) /\
  suggestions (state (snd (send_message terse_backend "it hurts" active_world)))
    = PyList [PyStr "Any fever?"].
Proof.
  assert (Hs : has_session (state active_world)) by reflexivity.
  split; [exact Hs |].
  exact (send_message_suggestions terse_backend "it hurts" active_world Hs).
Defined.

(** X9. With a session, a call adds the user's text to the log and after it
    at most one entry, which is an assistant's; the older entries stay as
    they were. *)
Theorem send_message_adds_one_turn b text w :
  has_session (state w) ->
  exists added,
    messages (state (snd (send_message b text w)))
      = (messages (state w) ++ user_message text :: added)%list /\
    (added = [] \/ exists c, added = [assistant_message c]).
Proof.
  intros Hs. rewrite send_message_active by exact Hs.
  destruct (exchange_shape b text w) as [bs [added [_ [_ [Hm [_ [Hadded _]]]]]]].
  exists added. auto.
Qed.

Lemma send_message_adds_one_turn_witness :
  has_session (state active_world) /\
  exists added,
    messages (state (snd (send_message slow_backend "it hurts" active_world)))
      = ([user_message "hello"; assistant_message (PyStr "Hi")]
           ++ user_message "it hurts" :: added)%list /\
    (added = [] \/ exists c, added = [assistant_message c]).
Proof.
  assert (Hs : has_session (state active_world)) by reflexivity.
  split; [exact Hs |].
  exact (send_message_adds_one_turn slow_backend "it hurts" active_world Hs).
Defined.

(** X10. With a session, failure is never silent: if [send_message] returns
    without having shown a banner, the exchange succeeded, so the log gained
    the user's text and the backend's reply and the suggestions are the
    backend's. *)
Theorem send_message_quiet_means_success b text w :
  has_session (state w) ->
  fst (send_message b text w) = Returned tt ->
  banners (effects w (snd (send_message b text w))) = [] ->
  exists reply sugg,
    exchanged b text (session_id (state w)) = Some (reply, sugg) /\
    state (snd (send_message b text w))
      = {| session_id := session_id (state w);
           messages := messages (state w)
                       ++ [user_message text; assistant_message reply];
           suggestions := sugg |}.
Proof.
  intros Hs. rewrite send_message_active by exact Hs. intros Hret Hquiet.
  destruct (exchange_shape b text w) as [bs [added [Ht [Hout [_ [_ [_ Hok]]]]]]].
  rewrite (effects_app _ _ _ Ht) in Hquiet. simpl in Hquiet.
  rewrite banners_banners in Hquiet. rewrite Hout in Hret.
  specialize (Hok Hquiet Hret).
  destruct (exchanged b text (session_id (state w))) as [[reply sugg] |] eqn:He;
    [| congruence].
  exists reply, sugg. split; [reflexivity |].
  rewrite (exchange_exchanged b text w reply sugg He). reflexivity.
Qed.

Lemma send_message_quiet_means_success_witness :
  has_session (state active_world) /\
  fst (send_message scenario_backend "it hurts" active_world) = Returned tt /\
  banners (effects active_world
             (snd (send_message scenario_backend "it hurts" active_world))) = [] /\
  exists reply sugg,
    exchanged scenario_backend "it hurts" (PyStr "s-1") = Some (reply, sugg) /\
    state (snd (send_message scenario_backend "it hurts" active_world))
      = {| session_id := PyStr "s-1";
           messages := [user_message "hello"; assistant_message (PyStr "Hi")]
                       ++ [user_message "it hurts"; assistant_message reply];
           suggestions := sugg |}.
Proof.
  assert (Hs : has_session (state active_world)) by reflexivity.
  assert (Hret : fst (send_message scenario_backend "it hurts" active_world) = Returned tt)
    by reflexivity.
  assert (Hq : banners (effects active_world
                          (snd (send_message scenario_backend "it hurts" active_world)))
               = []) by reflexivity.
  split; [exact Hs | split; [exact Hret | split; [exact Hq |]]].
  exact (send_message_quiet_means_success scenario_backend "it hurts" active_world
           Hs Hret Hq).
Defined.

(** ** [send_message] without a session *)

(** X11. Without a session, when the backend creates one with a truthy id
    and then answers the exchange, [send_message] does the whole round: it
    posts the session request, pauses, posts the chat request under the new
    id, and leaves a conversation that holds exactly the user's text and the
    reply, whatever the log held before. *)
Theorem send_message_cold_start b text w sid reply sugg :
  no_session (state w) ->
  created_session b = Some sid ->
  truthy sid = true ->
  exchanged b text sid = Some (reply, sugg) ->
  send_message b text w =
    (Returned tt,
     {| state := {| session_id := sid;
                    messages := [user_message text; assistant_message reply];
                    suggestions := sugg |};
        trace := trace w ++ [Post session_request; Sleep 500;
                             Post (chat_request (PyStr text) sid)] |}).
Proof.
  intros Hno Hc Hsid He. rewrite send_message_inactive by exact Hno.
  rewrite (create_session_created b w sid Hc). simpl. rewrite Hsid.
  rewrite (exchange_exchanged b text _ reply sugg) by exact He. simpl.
  repeat rewrite <- app_assoc. reflexivity.
Qed.

Lemma send_message_cold_start_witness :
  no_session (state initial_world) /\
  send_message scenario_backend "I have sharp pain" initial_world =
    (Returned tt,
     {| state := {| session_id := PyStr "s-1";
                    messages := [user_message "I have sharp pain";
                                 assistant_message (PyStr "Tell me more")];
                    suggestions := PyList [PyStr "Since when?"; PyStr "Any fever?"] |};
        trace := [Post session_request; Sleep 500;
                  Post (chat_request (PyStr "I have sharp pain") (PyStr "s-1"))] |}).
Proof.
  assert (Hno : no_session (state initial_world)) by reflexivity.
  split; [exact Hno |].
  exact (send_message_cold_start scenario_backend "I have sharp pain" initial_world
           _ _ _ Hno eq_refl eq_refl eq_refl).
Defined.

(** X12. Without a session, when the backend answers the session request
    with a falsy id (the empty string, [null], 0), [send_message] gives up
    in silence: the state becomes the fresh one under that id, the user's
    text is neither logged nor sent, and no banner is shown. *)
Theorem send_message_falsy_id_drops_text b text w sid :
  no_session (state w) ->
  created_session b = Some sid ->
  truthy sid = false ->
  send_message b text w =
    (Returned tt,
     {| state := fresh_session sid;
        trace := trace w ++ [Post session_request; Sleep 500] |}).
Proof.
  intros Hno Hc Hsid. rewrite send_message_inactive by exact Hno.
  rewrite (create_session_created b w sid Hc). simpl. rewrite Hsid.
  rewrite <- app_assoc. reflexivity.
Qed.

Lemma send_message_falsy_id_drops_text_witness :
  no_session (state initial_world) /\
  created_session blank_id_backend = Some (PyStr "") /\
  send_message blank_id_backend "I have sharp pain" initial_world =
    (Returned tt,
     {| state := fresh_session (PyStr "");
        trace := [Post session_request; Sleep 500] |}).
Proof.
  assert (Hno : no_session (state initial_world)) by reflexivity.
  split; [exact Hno | split; [reflexivity |]].
  exact (send_message_falsy_id_drops_text blank_id_backend "I have sharp pain"
           initial_world (PyStr "") Hno eq_refl eq_refl).
Defined.

(** ** More invariants of the reachable worlds *)

(** X13. In every reachable world the log is made of turns: every entry has
    role ["user"] or ["assistant"], the first entry is a user's, and every
    assistant entry comes right after a user entry. *)
Theorem reachable_log_is_made_of_turns w :
  reachable w -> answers_follow_questions false (messages (state w)) = true.
Proof.
  apply (reachable_preserves
           (fun s => answers_follow_questions false (messages s) = true)).
  - reflexivity.
  - intros b text w0 Hlog _.
    destruct (exchange_shape b text w0) as [bs [added [_ [_ [Hm [_ [Hadded _]]]]]]].
    rewrite Hm. apply answers_follow_questions_app; [| exact Hlog].
    destruct Hadded as [-> | [c ->]]; intros after; reflexivity.
Qed.

Lemma reachable_log_is_made_of_turns_witness :
  let w := snd (run slow_backend (SendMessage "and now?")
                  (snd (run scenario_backend (SendMessage "I have sharp pain")
                          initial_world))) in
  reachable w /\
  map role (messages (state w)) = ["user"; "assistant"; "user"] /\
  answers_follow_questions false (messages (state w)) = true.
Proof.
  intros w.
  assert (Hr : reachable w) by (repeat apply reachable_run; apply reachable_init).
  split; [exact Hr | split; [reflexivity |]].
  exact (reachable_log_is_made_of_turns w Hr).
Defined.

(** X14. In every reachable world an empty log comes with an empty
    suggestion list, so a conversation without messages always shows the
    quick symptom buttons. *)
Theorem reachable_empty_log_has_no_suggestions w :
  reachable w -> messages (state w) = [] -> suggestions (state w) = PyList [].
Proof.
  apply (reachable_preserves (fun s => messages s = [] -> suggestions s = PyList [])).
  - reflexivity.
  - intros b text w0 _ _ Hempty.
    destruct (exchange_shape b text w0) as [bs [added [_ [_ [Hm _]]]]].
    rewrite Hm in Hempty. destruct (messages (state w0)); discriminate.
Qed.

Lemma reachable_empty_log_has_no_suggestions_witness :
  let w := snd (run second_backend Reset
                  (snd (run scenario_backend (SendMessage "I have sharp pain")
                          initial_world))) in
  reachable w /\ messages (state w) = [] /\ suggestions (state w) = PyList [].
Proof.
  intros w.
  assert (Hr : reachable w) by (repeat apply reachable_run; apply reachable_init).
  assert (He : messages (state w) = []) by reflexivity.
  split; [exact Hr | split; [exact He |]].
  exact (reachable_empty_log_has_no_suggestions w Hr He).
Defined.



(** ** The handlers of the input area *)

Lemma then_rerun_stops (m : ui unit) data w :
  snd ((m ;; st_rerun data) w) = snd (m w) /\
  exists e, fst ((m ;; st_rerun data) w) = Raised e.
Proof.
  unfold bind, st_rerun, raise. destruct (m w) as [[[] | e] w']; simpl; eauto.
Qed.

Lemma bind_raised {A B} (m : ui A) (k : A -> ui B) w e :
  fst (m w) = Raised e -> bind m k w = (Raised e, snd (m w)).
Proof.
  unfold bind. destruct (m w) as [[a | e'] w']; simpl; [discriminate |].
  intros H; injection H as ->. reflexivity.
Qed.

(** X16. The pass over the quick symptom buttons acts on the first clicked
    button only: it sends ["I'm experiencing "] followed by that button's
    label in lower case and then stops the script run by raising, so no
    second message goes out in the run; when no button is clicked the pass
    returns and the world is untouched. *)
Theorem quick_symptom_buttons_first_click b data clicked symptoms :
  forall i w,
    ((forall j, (j < length symptoms)%nat -> clicked (i + j)%nat = false) ->
     quick_symptom_buttons b data clicked i symptoms w = (Returned tt, w)) /\
    (forall k symptom,
        nth_error symptoms k = Some symptom ->
        clicked (i + k)%nat = true ->
        (forall j, (j < k)%nat -> clicked (i + j)%nat = false) ->
        snd (quick_symptom_buttons b data clicked i symptoms w)
          = snd (send_message b ("I'm experiencing " ++ str_lower symptom) w) /\
        exists e, fst (quick_symptom_buttons b data clicked i symptoms w) = Raised e).
Proof.
  induction symptoms as [| s rest IH]; intros i w; cbn [quick_symptom_buttons length].
  - split; [reflexivity |]. intros [| k] symptom H; discriminate.
  - split.
    + intros Hnone.
      assert (Hi : clicked i = false)
        by (rewrite <- (Nat.add_0_r i); apply Hnone; lia).
      unfold bind at 1. rewrite Hi. unfold ret at 1.
      apply (proj1 (IH (S i) w)). intros j Hj.
      replace (S i + j)%nat with (i + S j)%nat by lia. apply Hnone. lia.
    + intros [| k] symptom Hnth Hclick Hbefore; cbn [nth_error] in Hnth.
      * injection Hnth as ->. rewrite Nat.add_0_r in Hclick. rewrite Hclick.
        destruct (then_rerun_stops (send_message b ("I'm experiencing " ++ str_lower symptom))
                    data w) as [Hw [e He]].
        rewrite (bind_raised _ _ w e He). cbn [fst snd]. eauto.
      * assert (Hi : clicked i = false)
          by (rewrite <- (Nat.add_0_r i); apply Hbefore; lia).
        unfold bind at 1. rewrite Hi. unfold ret at 1.
        apply (proj2 (IH (S i) w) k symptom Hnth).
        -- replace (S i + k)%nat with (i + S k)%nat by lia. exact Hclick.
        -- intros j Hj. replace (S i + j)%nat with (i + S j)%nat by lia.
           apply Hbefore. lia.
Qed.

Lemma quick_symptom_buttons_first_click_witness :
  let clicked := fun j => (1 <=? j)%nat in
  let w' := snd (quick_symptom_buttons scenario_backend "rerun" clicked 0
                   quick_symptoms initial_world) in
  nth_error quick_symptoms 1 = Some "Nausea and vomiting" /\
  w' = snd (send_message scenario_backend "I'm experiencing nausea and vomiting"
              initial_world) /\
  messages (state w') = [user_message "I'm experiencing nausea and vomiting";
                         assistant_message (PyStr "Tell me more")].
Proof.
  intros clicked w'.
  assert (Hnth : nth_error quick_symptoms 1 = Some "Nausea and vomiting") by reflexivity.
  assert (Hclick : clicked (0 + 1)%nat = true) by reflexivity.
  assert (Hbefore : forall j, (j < 1)%nat -> clicked (0 + j)%nat = false).
  { intros j Hj. assert (j = 0)%nat as -> by lia. reflexivity. }
  split; [exact Hnth | split; [| reflexivity]].
  exact (proj1 (proj2 (quick_symptom_buttons_first_click scenario_backend "rerun" clicked
                         quick_symptoms 0%nat initial_world)
                  1%nat "Nausea and vomiting" Hnth Hclick Hbefore)).
Defined.

(** X17. The test after the form lets the empty string through to nothing:
    an empty submission, like no submission, returns with the world
    untouched.  Every other submitted text, blank ones included, goes to
    [send_message], after which the script run stops by raising. *)
Theorem submit_chat_form_filters_empty_only b data submitted user_input w :
  (submitted = false \/ user_input = "" ->
   submit_chat_form b data submitted user_input w = (Returned tt, w)) /\
  (submitted = true -> user_input <> "" ->
   snd (submit_chat_form b data submitted user_input w)
     = snd (send_message b user_input w) /\
   exists e, fst (submit_chat_form b data submitted user_input w) = Raised e).
Proof.
  unfold submit_chat_form. split.
  - intros [-> | ->]; [reflexivity |]. simpl. rewrite andb_false_r. reflexivity.
  - intros -> Hne. simpl.
    destruct (String.eqb_spec user_input ""); [contradiction |]. simpl.
    apply then_rerun_stops.
Qed.

Lemma submit_chat_form_filters_empty_only_witness :
  submit_chat_form scenario_backend "rerun" true "" active_world
    = (Returned tt, active_world) /\
  snd (submit_chat_form scenario_backend "rerun" true "   " active_world)
    = snd (send_message scenario_backend "   " active_world) /\
  messages (state (snd (submit_chat_form scenario_backend "rerun" true "   " active_world)))
    = [user_message "hello"; assistant_message (PyStr "Hi");
       user_message "   "; assistant_message (PyStr "Tell me more")].
Proof.
  pose proof (submit_chat_form_filters_empty_only scenario_backend "rerun" true ""
                active_world) as [Hempty _].
  pose proof (submit_chat_form_filters_empty_only scenario_backend "rerun" true "   "
                active_world) as [_ Hblank].
  split; [apply Hempty; right; reflexivity |].
  split; [| reflexivity].
  apply Hblank; [reflexivity | discriminate].
Defined.
